(** * The chat-completion adapter of [api.py]

    A shallow embedding of the two HTTP handlers of [src/api.py]
    ([list_models] and [chat_completions]) and the properties of the
    adapter's observable contract.

    - A message is a Python [Dict[str, str]]: a finite map from strings to
      strings, in which the keys ["role"] and ["content"] may be absent.
    - A handler's return value is a Python dict literal: a JSON value whose
      objects keep the order of the literal.
    - The external pipeline ([create_rag_crew] and the crew's [kickoff]) is
      opaque: it is a parameter of the development.  It may raise, and it may
      depend on and change a hidden state of the world.
    - The pipeline raises Python exceptions of any class, [KeyError]
      included; the handler's own exceptions are of the same type.
    - [print] writes to standard output and raises [UnicodeEncodeError] on a
      line the stream cannot encode; what the stream encodes beyond
      seven-bit text is a parameter. Standard output is taken to be open.
    - The handler runs in a small monad: it threads the world, records the
      events it emits (the line printed, the calls to the pipeline) and stops
      at the first exception raised.
    - The tracing block at the head of the file ([Boot.setup]) runs on
      [os.environ] and a world outside, with the import of the tracing
      package and its [register] as parameters; its [try] statement is
      modelled with the classes its [except] clauses tell apart. *)

From stdpp Require Import base option list strings gmap.
From Stdlib Require Import ZArith.

Open Scope string_scope.
Open Scope list_scope.
Open Scope Z_scope.

Set Warnings "-register-all".

(** ** JSON values: what the handlers return *)

Inductive json : Type :=
  | JNull
  | JNum (n : Z)
  | JStr (s : string)
  | JArr (items : list json)
  | JObj (fields : list (string * json)).

(** [d[k]] on a returned object, first binding of the key. *)
Fixpoint assoc (k : string) (fields : list (string * json)) : option json :=
  match fields with
  | [] => None
  | (k', v) :: rest => if decide (k = k') then Some v else assoc k rest
  end.

Definition field (k : string) (j : json) : option json :=
  match j with
  | JObj fields => assoc k fields
  | _ => None
  end.

(** [body[outer][inner]] *)
Definition field_in (outer inner : string) (body : json) : option json :=
  field outer body ≫= field inner.

(** [body["usage"][k]] when it is a number. *)
Definition usage_count (k : string) (body : json) : option Z :=
  match field_in "usage" k body with
  | Some (JNum n) => Some n
  | _ => None
  end.

(** ** The request model *)

(** [Dict[str, str]] *)
Abbreviation message := (gmap string string).

(** [class ChatRequest(BaseModel)] *)
Record ChatRequest : Type := mkChatRequest {
  model : string;
  messages : list message
}.

(** A message with the two keys of the OpenAI shape. *)
Definition msg (role content : string) : message :=
  <["role" := role]> (<["content" := content]> ∅).

(** ** Text that every stream encodes *)

(** A character of seven bits: the high bit is off. *)
Definition seven_bit (c : Ascii.ascii) : bool :=
  match c with
  | Ascii.Ascii _ _ _ _ _ _ _ high => negb high
  end.

(** A text of seven-bit characters only. A Python [str] is held here by
    its UTF-8 bytes, so such a text is one of ASCII characters. *)
Fixpoint ascii_only (s : string) : bool :=
  match s with
  | EmptyString => true
  | String c rest => seven_bit c && ascii_only rest
  end.

(** ** The handlers *)

Section Adapter.

(** [World] is whatever the pipeline reads and changes; [Crew] is what
    [create_rag_crew] returns, [Output] what [kickoff] returns and
    [Failure] stands for the exceptions of classes the handler does not
    raise by itself. *)
Context {World Crew Output Failure : Type}.

(** Python exceptions, by what the handler can tell of them. The pipeline
    may raise any of them: a [KeyError] raised inside [create_rag_crew] or
    [kickoff] is a [KeyError] when it leaves the handler. *)
Inductive exn : Type :=
  | KeyError (key : string)
  | UnicodeEncodeError (object : string)
  | Raised (e : Failure).

(** Whether the encoding and error handler of [sys.stdout] encode a line
    that has characters beyond ASCII. *)
Variable stdout_encodes : string → bool.
(** The external collaborator. *)
Variable create_rag_crew : string → World → World * (exn + Crew).
Variable kickoff : Crew → World → World * (exn + Output).
(** [str(execution_result)], taken to return. *)
Variable str : Output → string.

(** What the handler does that can be seen from outside. *)
Inductive event : Type :=
  | Printed (line : string)
  | Created (query : string)
  | KickedOff (crew : Crew).

(** A run ends in a world, has emitted events in order, and has raised an
    exception or returned a value. A computation maps the world it starts
    in to a run. *)
Definition run (A : Type) : Type := World * list event * (exn + A).

Definition M (A : Type) : Type := World → run A.

Definition world_of {A} (r : run A) : World := r.1.1.
Definition trace_of {A} (r : run A) : list event := r.1.2.
Definition outcome_of {A} (r : run A) : exn + A := r.2.

Definition ret {A} (a : A) : M A := λ w, (w, [], inr a).

Definition raise {A} (e : exn) : M A := λ w, (w, [], inl e).

Definition bind {A B} (m : M A) (k : A → M B) : M B := λ w,
  match m w with
  | (w1, tr1, inl e) => (w1, tr1, inl e)
  | (w1, tr1, inr a) =>
      match k a w1 with
      | (w2, tr2, r) => (w2, tr1 ++ tr2, r)
      end
  end.

Notation "'let*' x := m 'in' k" := (bind m (λ x, k))
  (at level 10, x name, m at level 100, k at level 200).
Notation "'do' m 'in' k" := (bind m (λ _, k))
  (at level 10, m at level 100, k at level 200).

Definition emit (ev : event) : M unit := λ w, (w, [ev], inr tt).

(** A line standard output can write: ASCII text under every encoding of
    a text stream, other text as the stream has it. *)
Definition printable (line : string) : bool :=
  ascii_only line || stdout_encodes line.

(** [print(line)]: the line is encoded whole before anything is written,
    so a line that cannot be encoded raises and leaves no output. *)
Definition print (line : string) : M unit :=
  if printable line then emit (Printed line)
  else raise (UnicodeEncodeError line).

(** [list_models]: the body of [GET /v1/models]. *)
Definition list_models : M json :=
  ret (JObj [
    ("object", JStr "list");
    ("data", JArr [
      JObj [
        ("id", JStr "app-rag-model");
        ("object", JStr "model");
        ("created", JNum 1677652288);
        ("owned_by", JStr "app-rag-model");
        ("permission", JArr []);
        ("root", JStr "app-rag-model");
        ("parent", JNull);
        ("max_tokens", JNum 131072);
        ("context_length", JNum 131072)
      ]
    ])
  ]).

(** A call to the outside: the call is recorded, then it returns or
    raises. *)
Definition call_create_rag_crew (query : string) : M Crew := λ w,
  match create_rag_crew query w with
  | (w', inl e) => (w', [Created query], inl e)
  | (w', inr crew) => (w', [Created query], inr crew)
  end.

Definition call_kickoff (crew : Crew) : M Output := λ w,
  match kickoff crew w with
  | (w', inl e) => (w', [KickedOff crew], inl e)
  | (w', inr out) => (w', [KickedOff crew], inr out)
  end.

(** [msg[key]]: raises [KeyError] when the key is absent. *)
Definition getitem (m : message) (key : string) : M string :=
  match m !! key with
  | Some v => ret v
  | None => raise (KeyError key)
  end.

(** [next((msg["content"] for msg in it if msg["role"] == "user"), None)]
    where [it] yields the messages of [msgs] in order. *)
Fixpoint next_user_content (msgs : list message) : M (option string) :=
  match msgs with
  | [] => ret None
  | m :: rest =>
      let* role := getitem m "role" in
      if decide (role = "user")
      then let* content := getitem m "content" in ret (Some content)
      else next_user_content rest
  end.

(** The test [if not user_message]: [None] and the empty string are
    falsy; what is left is a non-empty string. *)
Definition truthy (user_message : option string) : option string :=
  match user_message with
  | None => None
  | Some s => if decide (s = "") then None else Some s
  end.

Definition no_user_message : json :=
  JObj [("error", JStr "No user message found")].

Definition chat_response (model_name content : string) : json :=
  JObj [
    ("id", JStr "chatcmpl-123");
    ("object", JStr "chat.completion");
    ("created", JNum 1677652288);
    ("model", JStr model_name);
    ("choices", JArr [
      JObj [
        ("index", JNum 0);
        ("message", JObj [
          ("role", JStr "assistant");
          ("content", JStr content)
        ]);
        ("finish_reason", JStr "stop")
      ]
    ]);
    ("usage", JObj [
      ("prompt_tokens", JNum 0);
      ("completion_tokens", JNum 0);
      ("total_tokens", JNum 0)
    ])
  ].

(** [chat_completions]: the body of [POST /v1/chat/completions]. *)
Definition chat_completions (request : ChatRequest) : M json :=
  let* user_message := next_user_content (reverse (messages request)) in
  match truthy user_message with
  | None => ret no_user_message
  | Some user_message =>
      do print ("Received query for API: " +:+ user_message) in
      let* application_crew := call_create_rag_crew user_message in
      let* execution_result := call_kickoff application_crew in
      ret (chat_response (model request) (str execution_result))
  end.

(** What [chat_completions] does once its [print] of a non-empty query
    has returned: the three ways the calls to the pipeline can end. *)
Definition pipeline_run (model_name query : string) (w : World) : run json :=
  let line := Printed ("Received query for API: " +:+ query) in
  match create_rag_crew query w with
  | (w1, inl e) => (w1, [line; Created query], inl e)
  | (w1, inr crew) =>
      match kickoff crew w1 with
      | (w2, inl e) =>
          (w2, [line; Created query; KickedOff crew], inl e)
      | (w2, inr out) =>
          (w2, [line; Created query; KickedOff crew],
           inr (chat_response model_name (str out)))
      end
  end.

(** The pipeline raises [e] on [query] from the world [w], leaving the
    world [w']: at construction, or at execution of the crew built. *)
Definition pipeline_raises (query : string) (w : World) (e : exn)
    (w' : World) : Prop :=
  create_rag_crew query w = (w', inl e) ∨
  ∃ crew w1,
    create_rag_crew query w = (w1, inr crew) ∧
    kickoff crew w1 = (w', inl e).

End Adapter.

Arguments KeyError {Failure} key.
Arguments UnicodeEncodeError {Failure} object.
Arguments Printed {Crew} line.
Arguments Created {Crew} query.

(** ** Reading a run *)

(** The arguments of the calls to [create_rag_crew], in order. *)
Definition factory_calls {Crew} (tr : list (event (Crew:=Crew))) : list string :=
  omap (λ ev, match ev with Created q => Some q | _ => None end) tr.

(** The crews on which [kickoff] was called, in order. *)
Definition kickoffs {Crew} (tr : list (event (Crew:=Crew))) : list Crew :=
  omap (λ ev, match ev with KickedOff c => Some c | _ => None end) tr.

(** ** Pipelines to run the handler on *)

Module Stub.
(** The world counts the calls made to the pipeline; a crew is its query. *)
Definition create (query : string) (w : nat)
    : nat * (exn (Failure:=string) + string) :=
  (S w, inr query).

Definition kickoff (crew : string) (w : nat)
    : nat * (exn (Failure:=string) + string) :=
  (S w, inr ("answer to " +:+ crew)).

Definition failing_kickoff (crew : string) (w : nat)
    : nat * (exn (Failure:=string) + string) :=
  (S w, inl (Raised "no answer")).

(** A factory that looks up a key its configuration does not have. *)
Definition unconfigured_create (query : string) (w : nat)
    : nat * (exn (Failure:=string) + string) :=
  (S w, inl (KeyError "OPENAI_API_KEY")).

Definition str (out : string) : string := out.

(** A standard output in UTF-8, and one in ASCII with strict errors. *)
Definition utf8_stdout (line : string) : bool := true.

Definition ascii_stdout (line : string) : bool := false.
End Stub.

Abbreviation stub_handler :=
  (chat_completions Stub.utf8_stdout Stub.create Stub.kickoff Stub.str).

(** The multi-turn history of the specification's example. *)
Definition history : list message :=
  [msg "system" "x"; msg "user" "A"; msg "assistant" "B"; msg "user" "C"].

(** The same history behind the model name of the listing, and a second
    request: a question followed by the assistant's reply. *)
Definition sample_request : ChatRequest :=
  mkChatRequest "app-rag-model" history.

Definition short_request : ChatRequest :=
  mkChatRequest "gpt-4" [msg "user" "hello"; msg "assistant" "hi"].

(** A question with a character beyond ASCII. *)
Definition accented_request : ChatRequest :=
  mkChatRequest "app-rag-model" [msg "user" "café"].

(** A user turn with nothing typed. *)
Definition blank_request : ChatRequest :=
  mkChatRequest "app-rag-model" [msg "user" ""].

(** An earlier question, then a user turn with nothing typed and a reply. *)
Definition blank_last_request : ChatRequest :=
  mkChatRequest "app-rag-model"
    [msg "user" "hello"; msg "user" ""; msg "assistant" "hi"].

(** An entry that has a content and no role. *)
Definition roleless_request : ChatRequest :=
  mkChatRequest "app-rag-model" [{["content" := "hello"]}].

(** A user turn with nothing typed, followed by an entry without role. *)
Definition blank_then_roleless_request : ChatRequest :=
  mkChatRequest "app-rag-model" [msg "user" ""; {["content" := "hello"]}].

(** ** Entries of a message list *)

(** An entry with role "user". *)
Definition user_entry (m : message) : Prop := m !! "role" = Some "user".

(** [i] is the highest index of an entry of [msgs] with role "user", and
    [m] is that entry. *)
Definition last_user_entry (msgs : list message) (i : nat) (m : message) : Prop :=
  msgs !! i = Some m ∧ user_entry m ∧
  ∀ j m', (i < j)%nat → msgs !! j = Some m' → ¬ user_entry m'.

(** Every entry of [msgs] after index [i] has the key "role". *)
Definition roles_present_after (msgs : list message) (i : nat) : Prop :=
  ∀ j m', (i < j)%nat → msgs !! j = Some m' → is_Some (m' !! "role").

(** Every entry of [msgs] has the key "role". *)
Definition roles_present (msgs : list message) : Prop :=
  ∀ m, m ∈ msgs → is_Some (m !! "role").

(** An entry the scan passes over: it has a role, and the role is not
    "user". *)
Definition other_entry (m : message) : Prop :=
  is_Some (m !! "role") ∧ ¬ user_entry m.

(** [m] is the entry of [msgs] at which the scan from the end stops: every
    entry after it is passed over, and [m] is not. *)
Definition decided_by (msgs : list message) (m : message) : Prop :=
  ∃ before after,
    msgs = before ++ m :: after ∧ ¬ other_entry m ∧ Forall other_entry after.

(** Every entry has the two keys the handler reads. *)
Definition well_formed (msgs : list message) : Prop :=
  ∀ m, m ∈ msgs → is_Some (m !! "role") ∧ is_Some (m !! "content").

(** ** Start-up: the tracing block at the head of [api.py] *)

Module Boot.

(** Where a raised exception falls for the two [except] clauses of the
    block: [ImportError] or a subclass of it, another subclass of
    [Exception], or an exception outside [Exception] (such as
    [KeyboardInterrupt] and [SystemExit]). *)
Inductive exc_class : Type := ImportError | Exception | BaseException.

(** [isinstance(error, clause)] *)
Definition isinstance (c clause : exc_class) : bool :=
  match clause, c with
  | ImportError, ImportError => true
  | Exception, (ImportError | Exception) => true
  | BaseException, _ => true
  | _, _ => false
  end.

(** A raised exception: its class and [str(error)]. *)
Record error : Type := mkError { class : exc_class; text : string }.

(** [logging.info] and [logging.warning]. *)
Inductive level : Type := INFO | WARNING.

(** What the block does: the import, the call of [register], and the calls
    of [logging.info] and [logging.warning]. [Logged lvl message] is the
    call, made and returned, with the message as formatted. Whether a
    record comes out of a call is decided by the root logger, which
    [logging.basicConfig] on line 12 sets to [INFO] only when it has no
    handler yet; that is outside this model. *)
Inductive event : Type :=
  | Imported
  | Registered (project_name endpoint : string) (auto_instrument : bool)
  | Logged (lvl : level) (message : string).

Section Setup.

(** The tracing package is outside the repository. Importing it and calling
    its [register] may read [os.environ], depend on and change a hidden
    world, and raise; they are taken not to write [os.environ]. *)
Context {World : Type}.
(** [from phoenix.otel import register] *)
Variable import_register :
  gmap string string → World → World * (error + unit).
(** [register(project_name=..., endpoint=..., auto_instrument=...)] *)
Variable register :
  string → string → bool → gmap string string → World → World * (error + unit).

(** The process: [os.environ] and the world outside. *)
Record state : Type := mkState {
  environ : gmap string string;
  outside : World
}.

Definition run (A : Type) : Type := state * list event * (error + A).

Definition T (A : Type) : Type := state → run A.

Definition state_of {A} (r : run A) : state := r.1.1.
Definition trace_of {A} (r : run A) : list event := r.1.2.
Definition outcome_of {A} (r : run A) : error + A := r.2.

Definition ret {A} (a : A) : T A := λ s, (s, [], inr a).

Definition bind {A B} (m : T A) (k : A → T B) : T B := λ s,
  match m s with
  | (s1, tr1, inl e) => (s1, tr1, inl e)
  | (s1, tr1, inr a) =>
      match k a s1 with
      | (s2, tr2, r) => (s2, tr1 ++ tr2, r)
      end
  end.

Notation "'let*' x := m 'in' k" := (bind m (λ x, k))
  (at level 10, x name, m at level 100, k at level 200).
Notation "'do' m 'in' k" := (bind m (λ _, k))
  (at level 10, m at level 100, k at level 200).

(** The first [except] clause, in order, that the exception is an instance
    of. *)
Fixpoint clause_for {A} (e : error) (clauses : list (exc_class * (error → T A)))
    : option (error → T A) :=
  match clauses with
  | [] => None
  | (c, h) :: rest =>
      if isinstance (class e) c then Some h else clause_for e rest
  end.

(** [try: body except c1 as error: h1 except c2 as error: h2 ...]: an
    exception of the body is handled by the first clause it is an instance
    of, and leaves the statement when there is none. *)
Definition try_except {A} (body : T A)
    (clauses : list (exc_class * (error → T A))) : T A := λ s,
  match body s with
  | (s1, tr1, inl e) =>
      match clause_for e clauses with
      | Some h =>
          match h e s1 with
          | (s2, tr2, r) => (s2, tr1 ++ tr2, r)
          end
      | None => (s1, tr1, inl e)
      end
  | (s1, tr1, inr a) => (s1, tr1, inr a)
  end.

(** [os.getenv(key, default)]: the default is for an absent variable only. *)
Definition getenv (key default : string) : T string := λ s,
  (s, [], inr (match environ s !! key with Some v => v | None => default end)).

(** [os.environ[key] = value] *)
Definition setenv (key value : string) : T unit := λ s,
  (mkState (<[key := value]> (environ s)) (outside s), [], inr tt).

Definition call_import : T unit := λ s,
  match import_register (environ s) (outside s) with
  | (w', inl e) => (mkState (environ s) w', [Imported], inl e)
  | (w', inr _) => (mkState (environ s) w', [Imported], inr tt)
  end.

Definition call_register (project_name endpoint : string)
    (auto_instrument : bool) : T unit := λ s,
  let ev := Registered project_name endpoint auto_instrument in
  match register project_name endpoint auto_instrument (environ s) (outside s)
  with
  | (w', inl e) => (mkState (environ s) w', [ev], inl e)
  | (w', inr _) => (mkState (environ s) w', [ev], inr tt)
  end.

(** [logging.info(message)] and [logging.warning(message)]: the call is
    recorded and returns. *)
Definition log (lvl : level) (message : string) : T unit := λ s,
  (s, [Logged lvl message], inr tt).

(** Lines 15 to 30 of [api.py]. *)
Definition setup : T unit :=
  let* tracing_host := getenv "PHOENIX_HOST" "host.docker.internal" in
  let tracing_endpoint := "http://" +:+ tracing_host +:+ ":6006" in
  do setenv "PHOENIX_COLLECTOR_ENDPOINT" tracing_endpoint in
  try_except
    (do call_import in
     do call_register "default" (tracing_endpoint +:+ "/v1/traces") true in
     log INFO ("✅ Tracing successfully initialized for API server at "
               +:+ tracing_endpoint))
    [(ImportError, λ error,
        log WARNING ("⚠️  Tracing module not found: " +:+ text error));
     (Exception, λ error,
        log WARNING ("⚠️  Could not initialize tracing: " +:+ text error))].

(** The address the block computes from an environment, and the
    environment it leaves. *)
Definition collector_endpoint (env : gmap string string) : string :=
  "http://" +:+ default "host.docker.internal" (env !! "PHOENIX_HOST")
  +:+ ":6006".

Definition exported (env : gmap string string) : gmap string string :=
  <["PHOENIX_COLLECTOR_ENDPOINT" := collector_endpoint env]> env.

(** From the state [s], the import and the registration both return,
    leaving the world [w']. *)
Definition succeeds (s : state) (w' : World) : Prop :=
  ∃ w1 u1 u2,
    import_register (exported (environ s)) (outside s) = (w1, inr u1) ∧
    register "default" (collector_endpoint (environ s) +:+ "/v1/traces") true
      (exported (environ s)) w1 = (w', inr u2).

(** From the state [s], the import raises [e], or it returns and the
    registration raises [e]; the world is left as [w']. *)
Definition fails (s : state) (e : error) (w' : World) : Prop :=
  import_register (exported (environ s)) (outside s) = (w', inl e) ∨
  ∃ w1 u1,
    import_register (exported (environ s)) (outside s) = (w1, inr u1) ∧
    register "default" (collector_endpoint (environ s) +:+ "/v1/traces") true
      (exported (environ s)) w1 = (w', inl e).

End Setup.

(** The registrations made, in order. *)
Definition registrations (tr : list event) : list (string * string * bool) :=
  omap (λ ev, match ev with
              | Registered p e a => Some (p, e, a)
              | _ => None
              end) tr.

(** The calls of [logging.info] and [logging.warning], in order. *)
Definition logged (tr : list event) : list (level * string) :=
  omap (λ ev, match ev with Logged l m => Some (l, m) | _ => None end) tr.

(** A machine without the tracing package, and one on which the
    registration is refused; the world counts the calls. *)
Definition absent_import (env : gmap string string) (w : nat)
    : nat * (error + unit) :=
  (S w, inl (mkError ImportError "No module named 'phoenix'")).

Definition present_import (env : gmap string string) (w : nat)
    : nat * (error + unit) := (S w, inr tt).

Definition accepting_register (project_name endpoint : string)
    (auto_instrument : bool) (env : gmap string string) (w : nat)
    : nat * (error + unit) := (S w, inr tt).

Definition refusing_register (project_name endpoint : string)
    (auto_instrument : bool) (env : gmap string string) (w : nat)
    : nat * (error + unit) :=
  (S w, inl (mkError Exception "connection refused")).

Definition interrupted_register (project_name endpoint : string)
    (auto_instrument : bool) (env : gmap string string) (w : nat)
    : nat * (error + unit) :=
  (S w, inl (mkError BaseException "KeyboardInterrupt")).

End Boot.

(** ** Laws of the handler's monad *)

Section Monad.
Context {World Crew Failure : Type}.

Local Abbreviation M := (M (World:=World) (Crew:=Crew) (Failure:=Failure)).

(** A step that raises ends the computation: what follows is not run. *)
Lemma bind_raise {A B} (m : M A) (k : A → M B) w w1 tr1 e :
  m w = (w1, tr1, inl e) → bind m k w = (w1, tr1, inl e).
Proof. intros Hm. unfold bind. by rewrite Hm. Qed.

(** A step that returns is followed by the rest, run in the world it left;
    the events of both are emitted in order. *)
Lemma bind_return {A B} (m : M A) (k : A → M B) w w1 tr1 a :
  m w = (w1, tr1, inr a) →
  bind m k w =
    (world_of (k a w1), tr1 ++ trace_of (k a w1), outcome_of (k a w1)).
Proof.
  intros Hm. unfold bind. rewrite Hm.
  by destruct (k a w1) as [[w2 tr2] r].
Qed.

(** A silent step that returns is just followed by the rest. *)
Lemma bind_pure {A B} (m : M A) (k : A → M B) w a :
  m w = (w, [], inr a) → bind m k w = k a w.
Proof.
  intros Hm. rewrite (bind_return _ _ _ _ _ _ Hm).
  by destruct (k a w) as [[w2 tr2] r].
Qed.
End Monad.

(** ** The scan for the last user message *)

Section Scan.
Context {World Crew Failure : Type}.

Local Abbreviation scan :=
  (next_user_content (World:=World) (Crew:=Crew) (Failure:=Failure)).
Local Abbreviation lookup_key :=
  (getitem (World:=World) (Crew:=Crew) (Failure:=Failure)).

Implicit Types (m : message) (msgs : list message) (w : World).

Lemma getitem_Some m k v w :
  m !! k = Some v → lookup_key m k w = (w, [], inr v).
Proof. intros Hk. unfold getitem. by rewrite Hk. Qed.

Lemma getitem_None m k w :
  m !! k = None → lookup_key m k w = (w, [], inl (KeyError k)).
Proof. intros Hk. unfold getitem. by rewrite Hk. Qed.

(** An entry with another role is passed over. *)
Lemma next_user_content_other m rest role w :
  m !! "role" = Some role → role ≠ "user" →
  scan (m :: rest) w = scan rest w.
Proof.
  intros Hrole Hne. cbn [next_user_content].
  rewrite (bind_pure _ _ _ _ (getitem_Some _ _ _ w Hrole)).
  by destruct (decide (role = "user")).
Qed.

(** The first user entry met decides: its content, or a [KeyError]. *)
Lemma next_user_content_user m rest w :
  user_entry m →
  scan (m :: rest) w =
    (w, [], match m !! "content" with
            | Some c => inr (Some c)
            | None => inl (KeyError "content")
            end).
Proof.
  intros Hrole. cbn [next_user_content].
  rewrite (bind_pure _ _ _ _ (getitem_Some _ _ _ w Hrole)).
  destruct (decide ("user" = "user")) as [_|]; [|done].
  destruct (m !! "content") as [c|] eqn:Hc.
  - by rewrite (bind_pure _ _ _ _ (getitem_Some _ _ _ w Hc)).
  - by rewrite (bind_raise _ _ _ _ _ _ (getitem_None _ _ w Hc)).
Qed.

(** An entry without a role stops the scan. *)
Lemma next_user_content_no_role m rest w :
  m !! "role" = None → scan (m :: rest) w = (w, [], inl (KeyError "role")).
Proof.
  intros Hrole. cbn [next_user_content].
  by rewrite (bind_raise _ _ _ _ _ _ (getitem_None _ _ w Hrole)).
Qed.

(** The scan reads its messages only: the world stays and nothing is
    emitted. *)
Lemma next_user_content_pure msgs w :
  ∃ r, scan msgs w = (w, [], r).
Proof.
  induction msgs as [|m rest IH]; [by eexists|].
  destruct (m !! "role") as [role|] eqn:Hrole.
  - destruct (decide (role = "user")) as [->|Hne].
    + rewrite next_user_content_user by done. by eexists.
    + by rewrite (next_user_content_other _ _ role).
  - rewrite next_user_content_no_role by done. by eexists.
Qed.

Lemma next_user_content_skip front rest w :
  Forall (λ m, is_Some (m !! "role") ∧ ¬ user_entry m) front →
  scan (front ++ rest) w = scan rest w.
Proof.
  induction 1 as [|m front [[role Hrole] Hnot] _ IH]; [done|].
  rewrite <- app_comm_cons.
  rewrite (next_user_content_other _ _ role); [done..|].
  intros ->. by apply Hnot.
Qed.

(** The entries after the last user entry, as the scan meets them. *)
Lemma last_user_entry_split msgs i m :
  last_user_entry msgs i m → roles_present_after msgs i →
  ∃ before after,
    reverse msgs = after ++ m :: before ∧
    Forall (λ m', is_Some (m' !! "role") ∧ ¬ user_entry m') after.
Proof.
  intros (Hi & _ & Hlast) Hroles.
  exists (reverse (take i msgs)), (reverse (drop (S i) msgs)). split.
  - rewrite <- (take_drop_middle msgs i m Hi) at 1.
    by rewrite reverse_app, reverse_cons, <- app_assoc.
  - apply Forall_reverse, Forall_lookup. intros k m' Hk.
    rewrite lookup_drop in Hk.
    split; [eapply Hroles | eapply Hlast]; try exact Hk; lia.
Qed.

(** What the scan of a request finds, by the last user entry. *)
Lemma next_user_content_last msgs i m w :
  last_user_entry msgs i m → roles_present_after msgs i →
  scan (reverse msgs) w =
    (w, [], match m !! "content" with
            | Some c => inr (Some c)
            | None => inl (KeyError "content")
            end).
Proof.
  intros Hlast Hroles.
  destruct (last_user_entry_split _ _ _ Hlast Hroles)
    as (before & after & -> & Hafter).
  rewrite next_user_content_skip by done.
  apply next_user_content_user, Hlast.
Qed.

(** Without a user entry the scan runs to the end. *)
Lemma next_user_content_none msgs w :
  roles_present msgs → (∀ m, m ∈ msgs → ¬ user_entry m) →
  scan (reverse msgs) w = (w, [], inr None).
Proof.
  intros Hroles Hnone.
  rewrite <- (app_nil_r (reverse msgs)).
  rewrite next_user_content_skip; [done|].
  apply Forall_reverse, Forall_forall. intros m Hm.
  split; [by apply Hroles | by apply Hnone].
Qed.

End Scan.

(** ** The chat-completion handler *)

Section Handler.
Context {World Crew Output Failure : Type}.
Variable stdout_encodes : string → bool.
Variable create_rag_crew :
  string → World → World * (exn (Failure:=Failure) + Crew).
Variable kickoff : Crew → World → World * (exn (Failure:=Failure) + Output).
Variable str : Output → string.

Local Abbreviation handler :=
  (chat_completions stdout_encodes create_rag_crew kickoff str).
Local Abbreviation query_line := (String.append "Received query for API: ").
Local Abbreviation scan :=
  (next_user_content (World:=World) (Crew:=Crew) (Failure:=Failure)).

Implicit Types (req : ChatRequest) (w : World) (body : json).

Lemma chat_completions_query req query w :
  scan (reverse (messages req)) w = (w, [], inr (Some query)) →
  query ≠ "" →
  printable stdout_encodes (query_line query) = true →
  handler req w =
    pipeline_run create_rag_crew kickoff str (model req) query w.
Proof.
  intros Hscan Hne Hprint. unfold chat_completions, pipeline_run.
  rewrite (bind_pure _ _ _ _ Hscan). cbn [truthy].
  destruct (decide (query = "")) as [|_]; [done|].
  unfold bind, print. rewrite Hprint.
  unfold emit, call_create_rag_crew, call_kickoff, ret.
  destruct (create_rag_crew query w) as [w1 [e|crew]]; [done|].
  by destruct (kickoff crew w1) as [w2 [e|out]].
Qed.

(** A line standard output cannot encode stops the handler at its
    [print], before the pipeline. *)
Lemma chat_completions_unprintable req query w :
  scan (reverse (messages req)) w = (w, [], inr (Some query)) →
  query ≠ "" →
  printable stdout_encodes (query_line query) = false →
  handler req w = (w, [], inl (UnicodeEncodeError (query_line query))).
Proof.
  intros Hscan Hne Hprint. unfold chat_completions.
  rewrite (bind_pure _ _ _ _ Hscan). cbn [truthy].
  destruct (decide (query = "")) as [|_]; [done|].
  unfold bind, print. by rewrite Hprint.
Qed.

Lemma chat_completions_no_query req found w :
  scan (reverse (messages req)) w = (w, [], inr found) →
  truthy found = None →
  handler req w = (w, [], inr no_user_message).
Proof.
  intros Hscan Hfalsy. unfold chat_completions.
  rewrite (bind_pure _ _ _ _ Hscan). by rewrite Hfalsy.
Qed.

Lemma chat_completions_scan_raises req e w :
  scan (reverse (messages req)) w = (w, [], inl e) →
  handler req w = (w, [], inl e).
Proof.
  intros Hscan. unfold chat_completions. by apply bind_raise.
Qed.

Lemma truthy_Some found query :
  truthy found = Some query → found = Some query ∧ query ≠ "".
Proof.
  destruct found as [s|]; [|done]. cbn [truthy].
  destruct (decide (s = "")); [done|]. by intros [= ->].
Qed.

(** A body returned by the handler is the error body, or the envelope
    around what the pipeline returned for the query found. *)
Lemma chat_completions_returns req w w' tr body :
  handler req w = (w', tr, inr body) →
  body = no_user_message ∨
  ∃ query crew out w1,
    query ≠ "" ∧
    scan (reverse (messages req)) w = (w, [], inr (Some query)) ∧
    printable stdout_encodes (query_line query) = true ∧
    create_rag_crew query w = (w1, inr crew) ∧
    kickoff crew w1 = (w', inr out) ∧
    tr = [Printed ("Received query for API: " +:+ query);
          Created query; KickedOff crew] ∧
    body = chat_response (model req) (str out).
Proof.
  intros Hrun.
  destruct (next_user_content_pure (Crew:=Crew) (Failure:=Failure)
              (reverse (messages req)) w) as [[e|found] Hscan].
  { rewrite (chat_completions_scan_raises _ _ _ Hscan) in Hrun. done. }
  destruct (truthy found) as [query|] eqn:Htruthy.
  - apply truthy_Some in Htruthy as [-> Hne].
    destruct (printable stdout_encodes (query_line query)) eqn:Hprint.
    2: { by rewrite (chat_completions_unprintable _ _ _ Hscan Hne Hprint)
           in Hrun. }
    rewrite (chat_completions_query _ _ _ Hscan Hne Hprint) in Hrun.
    unfold pipeline_run in Hrun.
    destruct (create_rag_crew query w) as [w1 [e|crew]] eqn:Hcreate; [done|].
    destruct (kickoff crew w1) as [w2 [e|out]] eqn:Hkick; [done|].
    injection Hrun as -> <- <-. right. by exists query, crew, out, w1.
  - rewrite (chat_completions_no_query _ _ _ Hscan Htruthy) in Hrun.
    left. by injection Hrun as _ _ <-.
Qed.

(** *** Extraction of the query *)

(** C1, as amended. For every request whose highest-index user entry has
    a non-empty content, in which every later entry has a role, and for
    which standard output can encode the line printed for that content, so
    that the [print] before the pipeline returns, the handler calls
    [create_rag_crew] exactly once, and its argument is that content: the
    calls to the factory are the one-element list of it. *)
Theorem last_user_content_passed_once req i m content w :
  last_user_entry (messages req) i m →
  m !! "content" = Some content →
  content ≠ "" →
  roles_present_after (messages req) i →
  printable stdout_encodes ("Received query for API: " +:+ content) = true →
  factory_calls (trace_of (handler req w)) = [content].
Proof.
  intros Hlast Hcontent Hne Hroles Hprint.
  pose proof (next_user_content_last (Crew:=Crew) (Failure:=Failure)
                _ _ _ w Hlast Hroles) as Hscan.
  rewrite Hcontent in Hscan.
  rewrite (chat_completions_query _ _ _ Hscan Hne Hprint).
  unfold pipeline_run.
  destruct (create_rag_crew content w) as [w1 [e|crew]]; [done|].
  by destruct (kickoff crew w1) as [w2 [e|out]].
Qed.

(** C2, as amended. For every request in which every entry has a role and
    none has role "user", the handler returns the body
    [{"error": "No user message found"}] as an ordinary return value; it
    emits nothing, so the factory is not called, and leaves the world as
    it was. *)
Theorem no_user_entry_error_body req w :
  roles_present (messages req) →
  (∀ m, m ∈ messages req → ¬ user_entry m) →
  handler req w = (w, [], inr no_user_message) ∧
  factory_calls (trace_of (handler req w)) = [].
Proof.
  intros Hroles Hnone.
  pose proof (next_user_content_none (Crew:=Crew) (Failure:=Failure)
                _ w Hroles Hnone) as Hscan.
  rewrite (chat_completions_no_query _ None _ Hscan); done.
Qed.

(** C3. On the history system "x", user "A", assistant "B", user "C" the
    query extracted is "C", and "C" is what the factory is called with,
    whatever the model name, the pipeline, the world and the encoding of
    standard output: the line printed for "C" is ASCII text. *)
Theorem history_query_is_C model_name w :
  scan (reverse history) w = (w, [], inr (Some "C")) ∧
  factory_calls (trace_of (handler (mkChatRequest model_name history) w))
    = ["C"].
Proof.
  assert (scan (reverse history) w = (w, [], inr (Some "C"))) as Hscan
    by reflexivity.
  split; [done|].
  rewrite (chat_completions_query (mkChatRequest model_name history)
             "C" w Hscan) by done.
  unfold pipeline_run.
  destruct (create_rag_crew "C" w) as [w1 [e|crew]]; [done|].
  by destruct (kickoff crew w1) as [w2 [e|out]].
Qed.

(** C8, as amended. For every request whose highest-index user entry has
    the empty string as content, and in which every later entry has a
    role, the handler returns [{"error": "No user message found"}] and
    does not call the factory: the content found is tested for
    truthiness. *)
Theorem empty_user_content_error_body req i m w :
  last_user_entry (messages req) i m →
  m !! "content" = Some "" →
  roles_present_after (messages req) i →
  handler req w = (w, [], inr no_user_message) ∧
  factory_calls (trace_of (handler req w)) = [].
Proof.
  intros Hlast Hcontent Hroles.
  pose proof (next_user_content_last (Crew:=Crew) (Failure:=Failure)
                _ _ _ w Hlast Hroles) as Hscan.
  rewrite Hcontent in Hscan.
  rewrite (chat_completions_no_query _ (Some "") _ Hscan); done.
Qed.

(** *** Failures of the pipeline *)

(** C4. When the handler has found a non-empty query and printed it, so
    that the pipeline is called, and the pipeline raises on it, at
    construction or at execution, the handler ends with that same
    exception, of whatever class, and returns no body; the factory was
    called once and the crew run at most once, so nothing is tried again. *)
Theorem pipeline_failure_propagates req query w e w' :
  scan (reverse (messages req)) w = (w, [], inr (Some query)) →
  query ≠ "" →
  printable stdout_encodes ("Received query for API: " +:+ query) = true →
  pipeline_raises create_rag_crew kickoff query w e w' →
  outcome_of (handler req w) = inl e ∧
  world_of (handler req w) = w' ∧
  factory_calls (trace_of (handler req w)) = [query] ∧
  (length (kickoffs (trace_of (handler req w))) ≤ 1)%nat.
Proof.
  intros Hscan Hne Hprint Hraises.
  rewrite (chat_completions_query _ _ _ Hscan Hne Hprint).
  unfold pipeline_run.
  destruct Hraises as [Hcreate | (crew & w1 & Hcreate & Hkick)].
  - rewrite Hcreate. cbn. auto.
  - rewrite Hcreate, Hkick. cbn. auto.
Qed.

(** *** The envelope *)

(** C6. Every body the handler returns, other than the error body, has
    the three token counts of its usage block equal to zero, so the total
    is the sum of the other two. *)
Theorem usage_counts_zero req w w' tr body :
  handler req w = (w', tr, inr body) →
  body ≠ no_user_message →
  ∃ p c t,
    usage_count "prompt_tokens" body = Some p ∧
    usage_count "completion_tokens" body = Some c ∧
    usage_count "total_tokens" body = Some t ∧
    p = 0 ∧ c = 0 ∧ t = 0 ∧ t = p + c.
Proof.
  intros Hrun Hok.
  destruct (chat_completions_returns _ _ _ _ _ Hrun)
    as [-> | (query & crew & out & w1 & _ & _ & _ & _ & _ & _ & ->)]; [done|].
  by exists 0, 0, 0.
Qed.

(** C7. Every body the handler returns, other than the error body, has
    the model name of the request in its field "model", whatever that
    name is, and a list of exactly one choice: role "assistant", finish
    reason "stop", and as content the text of what [kickoff] returned on
    the crew that [create_rag_crew] built. *)
Theorem envelope_echoes_model_and_result req w w' tr body :
  handler req w = (w', tr, inr body) →
  body ≠ no_user_message →
  field "model" body = Some (JStr (model req)) ∧
  ∃ choice query crew out w1,
    field "choices" body = Some (JArr [choice]) ∧
    field_in "message" "role" choice = Some (JStr "assistant") ∧
    create_rag_crew query w = (w1, inr crew) ∧
    kickoff crew w1 = (w', inr out) ∧
    field_in "message" "content" choice = Some (JStr (str out)) ∧
    field "finish_reason" choice = Some (JStr "stop").
Proof.
  intros Hrun Hok.
  destruct (chat_completions_returns _ _ _ _ _ Hrun)
    as [-> | (query & crew & out & w1 & _ & _ & _ & Hcreate & Hkick & _ & ->)];
    [done|].
  split; [done|]. by eexists _, query, crew, out, w1.
Qed.

(** C10. Any two bodies the handler returns, other than the error body,
    for whatever requests and worlds, carry the identifier "chatcmpl-123"
    and the creation time 1677652288: neither depends on the request. *)
Theorem envelope_id_and_created_fixed req1 req2 w1 w2 w1' w2' tr1 tr2
    body1 body2 :
  handler req1 w1 = (w1', tr1, inr body1) → body1 ≠ no_user_message →
  handler req2 w2 = (w2', tr2, inr body2) → body2 ≠ no_user_message →
  field "id" body1 = Some (JStr "chatcmpl-123") ∧
  field "created" body1 = Some (JNum 1677652288) ∧
  field "id" body2 = field "id" body1 ∧
  field "created" body2 = field "created" body1.
Proof.
  intros Hrun1 Hok1 Hrun2 Hok2.
  destruct (chat_completions_returns _ _ _ _ _ Hrun1)
    as [-> | (? & ? & ? & ? & _ & _ & _ & _ & _ & _ & ->)]; [done|].
  destruct (chat_completions_returns _ _ _ _ _ Hrun2)
    as [-> | (? & ? & ? & ? & _ & _ & _ & _ & _ & _ & ->)]; [done|].
  done.
Qed.

(** *** Requests that make the scan raise *)

(** C9. There is a request with an entry without the key "role" on which
    the handler raises [KeyError] on "role", and a request with a user
    entry without the key "content" on which it raises [KeyError] on
    "content"; in both the exception leaves the handler. *)
Theorem key_error_reachable :
  (∃ req,
    (∃ m, m ∈ messages req ∧ m !! "role" = None) ∧
    ∀ w, handler req w = (w, [], inl (KeyError "role"))) ∧
  (∃ req,
    (∃ m, m ∈ messages req ∧ user_entry m ∧ m !! "content" = None) ∧
    ∀ w, handler req w = (w, [], inl (KeyError "content"))).
Proof.
  split.
  - exists (mkChatRequest "app-rag-model" [{["content" := "hello"]}]). split.
    + eexists. split; [apply list_elem_of_here | done].
    + intros w. by apply chat_completions_scan_raises.
  - exists (mkChatRequest "app-rag-model" [{["role" := "user"]}]). split.
    + eexists. split; [apply list_elem_of_here | done].
    + intros w. by apply chat_completions_scan_raises.
Qed.

End Handler.

(** ** The model listing *)

(** C5. [list_models] takes no input and, from any world, returns the one
    listing below; it emits nothing, calls nothing and leaves the world as
    it was, so any two invocations return the same body. *)
Theorem list_models_constant {World Crew Failure : Type} :
  (∀ w : World,
    list_models (Crew:=Crew) (Failure:=Failure) w =
      (w, [],
       inr (JObj [
         ("object", JStr "list");
         ("data", JArr [
           JObj [
             ("id", JStr "app-rag-model");
             ("object", JStr "model");
             ("created", JNum 1677652288);
             ("owned_by", JStr "app-rag-model");
             ("permission", JArr []);
             ("root", JStr "app-rag-model");
             ("parent", JNull);
             ("max_tokens", JNum 131072);
             ("context_length", JNum 131072)
           ]
         ])
       ]))) ∧
  (∀ w1 w2 : World,
    outcome_of (list_models (Crew:=Crew) (Failure:=Failure) w1) =
    outcome_of (list_models (Crew:=Crew) (Failure:=Failure) w2)).
Proof. split; reflexivity. Qed.

(** ** The handler on concrete requests *)

Lemma short_request_last_user :
  last_user_entry (messages short_request) 0 (msg "user" "hello") ∧
  roles_present_after (messages short_request) 0.
Proof.
  split; [split; [reflexivity | split; [reflexivity|]]|].
  - intros [|[|j]] m' Hj Hm'; [lia | | discriminate].
    injection Hm' as <-. discriminate.
  - intros [|[|j]] m' Hj Hm'; [lia | | discriminate].
    injection Hm' as <-. by eexists.
Defined.

Lemma last_user_content_passed_once_witness :
  last_user_entry (messages short_request) 0 (msg "user" "hello") ∧
  factory_calls (trace_of (stub_handler short_request 0%nat)) = ["hello"].
Proof.
  destruct short_request_last_user as [Hlast Hroles].
  split; [exact Hlast|].
  apply (last_user_content_passed_once Stub.utf8_stdout Stub.create Stub.kickoff Stub.str
           short_request 0 (msg "user" "hello") "hello" 0%nat);
    [exact Hlast | reflexivity | discriminate | exact Hroles | reflexivity].
Defined.

(** C1 as stated fails: a request with a user entry, the last of which has
    an empty content, gets the error body and the factory is never called. *)
Lemma blank_user_content_not_passed :
  (∃ m, m ∈ messages blank_request ∧ user_entry m) ∧
  last_user_entry (messages blank_request) 0 (msg "user" "") ∧
  msg "user" "" !! "content" = Some "" ∧
  stub_handler blank_request 0%nat = (0%nat, [], inr no_user_message) ∧
  factory_calls (trace_of (stub_handler blank_request 0%nat)) = [].
Proof.
  split; [exists (msg "user" ""); split; [apply list_elem_of_here | reflexivity]|].
  split; [|by vm_compute].
  split; [reflexivity | split; [reflexivity|]].
  intros [|j] m' Hj Hm'; [lia | discriminate].
Qed.

Lemma no_user_entry_error_body_witness :
  stub_handler (mkChatRequest "gpt-4" [msg "system" "x"; msg "assistant" "B"])
    0%nat = (0%nat, [], inr no_user_message) ∧
  factory_calls
    (trace_of (stub_handler
       (mkChatRequest "gpt-4" [msg "system" "x"; msg "assistant" "B"]) 0%nat))
    = [].
Proof.
  apply (no_user_entry_error_body Stub.utf8_stdout Stub.create Stub.kickoff Stub.str
           (mkChatRequest "gpt-4" [msg "system" "x"; msg "assistant" "B"])
           0%nat).
  - intros m Hm. cbn in Hm.
    apply elem_of_cons in Hm as [-> | Hm]; [by eexists|].
    apply elem_of_cons in Hm as [-> | Hm]; [by eexists|].
    by apply elem_of_nil in Hm.
  - intros m Hm. cbn in Hm.
    apply elem_of_cons in Hm as [-> | Hm]; [discriminate|].
    apply elem_of_cons in Hm as [-> | Hm]; [discriminate|].
    by apply elem_of_nil in Hm.
Defined.

(** C2 as stated fails: a request whose only entry has no role has no entry
    with role "user", and the handler raises instead of returning the error
    body. *)
Lemma roleless_entry_raises :
  (∀ m, m ∈ messages roleless_request → ¬ user_entry m) ∧
  stub_handler roleless_request 0%nat = (0%nat, [], inl (KeyError "role")) ∧
  outcome_of (stub_handler roleless_request 0%nat) ≠ inr no_user_message.
Proof.
  split; [|by vm_compute].
  intros m Hm. cbn in Hm.
  apply elem_of_cons in Hm as [-> | Hm]; [discriminate|].
  by apply elem_of_nil in Hm.
Qed.

Lemma empty_user_content_error_body_witness :
  stub_handler blank_last_request 0%nat = (0%nat, [], inr no_user_message) ∧
  factory_calls (trace_of (stub_handler blank_last_request 0%nat)) = [].
Proof.
  apply (empty_user_content_error_body Stub.utf8_stdout Stub.create Stub.kickoff Stub.str
           blank_last_request 1 (msg "user" "") 0%nat).
  - split; [reflexivity | split; [reflexivity|]].
    intros [|[|[|j]]] m' Hj Hm'; [lia | lia | | discriminate].
    injection Hm' as <-. discriminate.
  - reflexivity.
  - intros [|[|[|j]]] m' Hj Hm'; [lia | lia | | discriminate].
    injection Hm' as <-. by eexists.
Defined.

(** C8 as stated fails: the last user entry has an empty content, but the
    entry after it has no role, and the handler raises instead of returning
    the error body. *)
Lemma blank_then_roleless_raises :
  last_user_entry (messages blank_then_roleless_request) 0 (msg "user" "") ∧
  msg "user" "" !! "content" = Some "" ∧
  stub_handler blank_then_roleless_request 0%nat
    = (0%nat, [], inl (KeyError "role")) ∧
  outcome_of (stub_handler blank_then_roleless_request 0%nat)
    ≠ inr no_user_message.
Proof.
  split; [|by vm_compute].
  split; [reflexivity | split; [reflexivity|]].
  intros [|[|j]] m' Hj Hm'; [lia | | discriminate].
  injection Hm' as <-. discriminate.
Qed.

Lemma pipeline_failure_propagates_witness :
  outcome_of
    (chat_completions Stub.utf8_stdout Stub.create Stub.failing_kickoff
       Stub.str sample_request 0%nat) = inl (Raised "no answer") ∧
  world_of
    (chat_completions Stub.utf8_stdout Stub.create Stub.failing_kickoff
       Stub.str sample_request 0%nat) = 2%nat ∧
  factory_calls
    (trace_of
       (chat_completions Stub.utf8_stdout Stub.create Stub.failing_kickoff
          Stub.str sample_request 0%nat)) = ["C"] ∧
  (length (kickoffs
    (trace_of
       (chat_completions Stub.utf8_stdout Stub.create Stub.failing_kickoff
          Stub.str sample_request 0%nat))) ≤ 1)%nat.
Proof.
  apply (pipeline_failure_propagates Stub.utf8_stdout Stub.create
           Stub.failing_kickoff Stub.str
           sample_request "C" 0%nat (Raised "no answer") 2%nat).
  - reflexivity.
  - discriminate.
  - reflexivity.
  - right. exists "C", 1%nat. split; reflexivity.
Defined.

Lemma usage_counts_zero_witness :
  ∃ p c t,
    usage_count "prompt_tokens" (chat_response "app-rag-model" "answer to C")
      = Some p ∧
    usage_count "completion_tokens"
      (chat_response "app-rag-model" "answer to C") = Some c ∧
    usage_count "total_tokens" (chat_response "app-rag-model" "answer to C")
      = Some t ∧
    p = 0 ∧ c = 0 ∧ t = 0 ∧ t = p + c.
Proof.
  apply (usage_counts_zero Stub.utf8_stdout Stub.create Stub.kickoff Stub.str
           sample_request 0%nat 2%nat
           [Printed "Received query for API: C"; Created "C"; KickedOff "C"]
           (chat_response "app-rag-model" "answer to C")).
  - vm_compute. reflexivity.
  - discriminate.
Defined.

Lemma envelope_echoes_model_and_result_witness :
  field "model" (chat_response "gpt-4" "answer to hello")
    = Some (JStr (model short_request)) ∧
  ∃ choice query crew out w1,
    field "choices" (chat_response "gpt-4" "answer to hello")
      = Some (JArr [choice]) ∧
    field_in "message" "role" choice = Some (JStr "assistant") ∧
    Stub.create query 0%nat = (w1, inr crew) ∧
    Stub.kickoff crew w1 = (2%nat, inr out) ∧
    field_in "message" "content" choice = Some (JStr (Stub.str out)) ∧
    field "finish_reason" choice = Some (JStr "stop").
Proof.
  apply (envelope_echoes_model_and_result Stub.utf8_stdout Stub.create Stub.kickoff Stub.str
           short_request 0%nat 2%nat
           [Printed "Received query for API: hello"; Created "hello";
            KickedOff "hello"]
           (chat_response "gpt-4" "answer to hello")).
  - vm_compute. reflexivity.
  - discriminate.
Defined.

Lemma envelope_id_and_created_fixed_witness :
  field "id" (chat_response "app-rag-model" "answer to C")
    = Some (JStr "chatcmpl-123") ∧
  field "created" (chat_response "app-rag-model" "answer to C")
    = Some (JNum 1677652288) ∧
  field "id" (chat_response "gpt-4" "answer to hello")
    = field "id" (chat_response "app-rag-model" "answer to C") ∧
  field "created" (chat_response "gpt-4" "answer to hello")
    = field "created" (chat_response "app-rag-model" "answer to C").
Proof.
  apply (envelope_id_and_created_fixed Stub.utf8_stdout Stub.create Stub.kickoff Stub.str
           sample_request short_request 0%nat 2%nat 2%nat 4%nat
           [Printed "Received query for API: C"; Created "C"; KickedOff "C"]
           [Printed "Received query for API: hello"; Created "hello";
            KickedOff "hello"]
           (chat_response "app-rag-model" "answer to C")
           (chat_response "gpt-4" "answer to hello")).
  - vm_compute. reflexivity.
  - discriminate.
  - vm_compute. reflexivity.
  - discriminate.
Defined.

(** ** Where the scan stops *)

Section Decided.
Context {World Crew Failure : Type}.

Local Abbreviation scan :=
  (next_user_content (World:=World) (Crew:=Crew) (Failure:=Failure)).

Implicit Types (m : message) (msgs : list message) (w : World).

Lemma not_other_entry m :
  ¬ other_entry m → m !! "role" = None ∨ user_entry m.
Proof.
  intros Hnot. destruct (m !! "role") as [role|] eqn:Hrole; [|by left].
  destruct (decide (role = "user")) as [->|Hne]; [by right|].
  exfalso. apply Hnot. split; [by rewrite Hrole|].
  unfold user_entry. rewrite Hrole. by intros [= ->].
Qed.

Lemma other_entry_dec m : other_entry m ∨ ¬ other_entry m.
Proof.
  destruct (m !! "role") as [role|] eqn:Hrole.
  - destruct (decide (role = "user")) as [->|Hne].
    + right. by intros [_ Hnot].
    + left. split; [by rewrite Hrole|].
      unfold user_entry. rewrite Hrole. by intros [= ->].
  - right. intros [[role Hsome] _]. congruence.
Qed.

(** Either every entry is passed over, or the scan stops at an entry. *)
Lemma scan_stops msgs :
  Forall other_entry msgs ∨ ∃ m, decided_by msgs m.
Proof.
  induction msgs as [|m msgs IH] using rev_ind; [by left|].
  destruct (other_entry_dec m) as [Hother|Hnot].
  - destruct IH as [Hall | (m' & before & after & -> & Hnot & Hafter)].
    + left. apply Forall_app. by split; [|apply Forall_singleton].
    + right. exists m', before, (after ++ [m]). split_and!; [|done|].
      * by rewrite <- app_assoc.
      * apply Forall_app. by split; [|apply Forall_singleton].
  - right. exists m, msgs, []. by split_and!.
Qed.

Lemma decided_by_not_all_other msgs m :
  decided_by msgs m → ¬ Forall other_entry msgs.
Proof.
  intros (before & after & -> & Hnot & _) Hall. apply Hnot.
  apply Forall_app in Hall as [_ Hall]. by apply Forall_cons in Hall as [? _].
Qed.

Lemma decided_by_elem_of msgs m : decided_by msgs m → m ∈ msgs.
Proof. intros (before & after & -> & _). set_solver. Qed.

(** An entry that is not passed over ends the scan: what comes after it in
    the scan, the earlier history, is not read. *)
Lemma next_user_content_stop m rest rest' w :
  ¬ other_entry m → scan (m :: rest) w = scan (m :: rest') w.
Proof.
  intros [Hrole|Huser]%not_other_entry.
  - by rewrite !next_user_content_no_role.
  - by rewrite !next_user_content_user.
Qed.

Lemma next_user_content_decided msgs m w :
  decided_by msgs m → scan (reverse msgs) w = scan [m] w.
Proof.
  intros (before & after & -> & Hnot & Hafter).
  rewrite reverse_app, reverse_cons, <- app_assoc.
  rewrite next_user_content_skip by by apply Forall_reverse.
  by apply next_user_content_stop.
Qed.

Lemma next_user_content_all_other msgs w :
  Forall other_entry msgs → scan (reverse msgs) w = (w, [], inr None).
Proof.
  intros Hall. rewrite <- (app_nil_r (reverse msgs)).
  by rewrite next_user_content_skip by by apply Forall_reverse.
Qed.

(** The entry at which the scan stops is determined by the messages. *)
Lemma decided_by_unique msgs m1 m2 :
  decided_by msgs m1 → decided_by msgs m2 → m1 = m2.
Proof.
  intros (b1 & a1 & -> & Hnot1 & Hafter1) (b2 & a2 & Heq & Hnot2 & Hafter2).
  revert a2 Heq Hafter2.
  induction a1 as [|x a1 IH] using rev_ind; intros a2 Heq Hafter2.
  - destruct a2 as [|y a2 _] using rev_ind.
    + by apply app_inj_tail in Heq as [_ ->].
    + rewrite app_comm_cons, !app_assoc in Heq.
      apply app_inj_tail in Heq as [_ ->].
      rewrite Forall_app, Forall_singleton in Hafter2.
      by destruct Hafter2 as [_ Hy].
  - rewrite Forall_app, Forall_singleton in Hafter1.
    destruct Hafter1 as [Hafter1 Hx].
    destruct a2 as [|y a2 _] using rev_ind.
    + rewrite app_comm_cons, !app_assoc in Heq.
      by apply app_inj_tail in Heq as [_ ->].
    + rewrite !app_comm_cons, !app_assoc in Heq.
      apply app_inj_tail in Heq as [Heq ->].
      rewrite Forall_app in Hafter2. destruct Hafter2 as [Hafter2 _].
      by apply (IH Hafter1 a2).
Qed.

End Decided.

(** ** Every run of the handler *)

Section Runs.
Context {World Crew Output Failure : Type}.
Variable stdout_encodes : string → bool.
Variable create_rag_crew :
  string → World → World * (exn (Failure:=Failure) + Crew).
Variable kickoff : Crew → World → World * (exn (Failure:=Failure) + Output).
Variable str : Output → string.

Local Abbreviation handler :=
  (chat_completions stdout_encodes create_rag_crew kickoff str).
Local Abbreviation query_line := (String.append "Received query for API: ").
Local Abbreviation scan :=
  (next_user_content (World:=World) (Crew:=Crew) (Failure:=Failure)).
Local Abbreviation piped := (pipeline_run create_rag_crew kickoff str).

Implicit Types (req : ChatRequest) (w : World) (body : json)
  (m : message) (msgs : list message).

(** The handler reads its request through the scan and the model name. *)
Lemma chat_completions_same_scan req1 req2 w :
  model req1 = model req2 →
  scan (reverse (messages req1)) w = scan (reverse (messages req2)) w →
  handler req1 w = handler req2 w.
Proof.
  intros Hmodel Hscan. unfold chat_completions, bind.
  by rewrite Hscan, Hmodel.
Qed.

(** The pipeline's part of a run: it emits, calls the factory once with the
    query, and ends in a failure of the pipeline or in an envelope. *)
Lemma pipeline_run_facts model_name query w :
  trace_of (piped model_name query w) ≠ [] ∧
  factory_calls (trace_of (piped model_name query w)) = [query] ∧
  outcome_of (piped model_name query w) ≠ inr no_user_message.
Proof.
  unfold pipeline_run.
  destruct (create_rag_crew query w) as [w1 [e|crew]]; [done|].
  by destruct (kickoff crew w1) as [w2 [e|out]].
Qed.

(** The six ways a run goes, by the entry at which the scan stops and by
    whether the line of the query can be printed. *)
Lemma chat_completions_cases req w :
  (Forall other_entry (messages req) ∧
   handler req w = (w, [], inr no_user_message)) ∨
  ∃ m, decided_by (messages req) m ∧
    ((m !! "role" = None ∧
      handler req w = (w, [], inl (KeyError "role"))) ∨
     (user_entry m ∧ m !! "content" = None ∧
      handler req w = (w, [], inl (KeyError "content"))) ∨
     (user_entry m ∧ m !! "content" = Some "" ∧
      handler req w = (w, [], inr no_user_message)) ∨
     (∃ query, user_entry m ∧ m !! "content" = Some query ∧ query ≠ "" ∧
      printable stdout_encodes (query_line query) = false ∧
      handler req w = (w, [], inl (UnicodeEncodeError (query_line query)))) ∨
     (∃ query, user_entry m ∧ m !! "content" = Some query ∧ query ≠ "" ∧
      printable stdout_encodes (query_line query) = true ∧
      handler req w = piped (model req) query w)).
Proof.
  destruct (scan_stops (messages req)) as [Hall | [m Hm]].
  { left. split; [done|].
    apply chat_completions_no_query with (found := None); [|done].
    by apply next_user_content_all_other. }
  right. exists m. split; [done|].
  pose proof (next_user_content_decided (Crew:=Crew) (Failure:=Failure)
                _ _ w Hm) as Hscan.
  destruct Hm as (_ & _ & _ & [Hrole|Huser]%not_other_entry & _).
  - left. split; [done|]. apply chat_completions_scan_raises.
    by rewrite Hscan, next_user_content_no_role.
  - right. rewrite next_user_content_user in Hscan by done.
    destruct (m !! "content") as [content|] eqn:Hcontent.
    + right. destruct (decide (content = "")) as [->|Hne].
      * left. split_and!; [done..|].
        by apply chat_completions_no_query with (found := Some "").
      * right.
        destruct (printable stdout_encodes (query_line content)) eqn:Hprint.
        -- right. exists content. split_and!; [done..|].
           by apply chat_completions_query.
        -- left. exists content. split_and!; [done..|].
           by apply chat_completions_unprintable.
    + left. split_and!; [done..|]. by apply chat_completions_scan_raises.
Qed.

(** *** What the handler raises by itself *)


(** X2. On a request in which every entry has the keys "role" and
    "content", the handler's own lookups raise nothing: a [KeyError] leaves
    the handler only after the factory has been called. *)
Theorem well_formed_key_error_after_factory req w k :
  well_formed (messages req) →
  outcome_of (handler req w) = inl (KeyError k) →
  ∃ query, factory_calls (trace_of (handler req w)) = [query].
Proof.
  intros Hwf Hout.
  destruct (chat_completions_cases req w)
    as [[_ Hrun] | (m & Hm & [[Hrole Hrun] | [(_ & Hcontent & Hrun)
        | [(_ & _ & Hrun) | [(query & _ & _ & _ & _ & Hrun)
        | (query & _ & _ & _ & _ & Hrun)]]]])];
    try (rewrite Hrun in Hout; discriminate Hout).
  - destruct (Hwf m (decided_by_elem_of _ _ Hm)) as [[role Hsome] _].
    congruence.
  - destruct (Hwf m (decided_by_elem_of _ _ Hm)) as [_ [content Hsome]].
    congruence.
  - rewrite Hrun. exists query.
    by destruct (pipeline_run_facts (model req) query w) as (_ & ? & _).
Qed.

(** X3. A run ends in [KeyError] on "role" with nothing printed and
    nothing called exactly when the scan from the end stops at an entry
    without the key "role": that entry is followed only by entries that
    have a role other than "user". *)
Theorem key_error_role_iff req w :
  outcome_of (handler req w) = inl (KeyError "role") ∧
  trace_of (handler req w) = [] ↔
  ∃ m, decided_by (messages req) m ∧ m !! "role" = None.
Proof.
  destruct (chat_completions_cases req w)
    as [[Hall Hrun] | (m & Hm & [[Hrole Hrun] | [(Huser & _ & Hrun)
        | [(Huser & _ & Hrun) | [(query & Huser & _ & _ & _ & Hrun)
        | (query & Huser & _ & _ & _ & Hrun)]]]])];
    rewrite Hrun; (split; [intros [Hout Htrace] | intros (m' & Hm' & Hrole')]);
    try done;
    try (unfold user_entry in Huser;
         rewrite (decided_by_unique _ _ _ Hm Hm') in Huser; congruence).
  - by destruct (decided_by_not_all_other _ _ Hm').
  - by exists m.
  - by destruct (pipeline_run_facts (model req) query w) as (? & _).
Qed.

(** X4. A run ends in [KeyError] on "content" with nothing printed and
    nothing called exactly when the scan from the end stops at an entry
    with role "user" that has no key "content". *)
Theorem key_error_content_iff req w :
  outcome_of (handler req w) = inl (KeyError "content") ∧
  trace_of (handler req w) = [] ↔
  ∃ m, decided_by (messages req) m ∧ user_entry m ∧ m !! "content" = None.
Proof.
  destruct (chat_completions_cases req w)
    as [[Hall Hrun] | (m & Hm & [[Hrole Hrun] | [(Huser & Hc & Hrun)
        | [(Huser & Hc & Hrun) | [(query & Huser & Hc & _ & _ & Hrun)
        | (query & Huser & Hc & _ & _ & Hrun)]]]])];
    rewrite Hrun;
    (split; [intros [Hout Htrace] | intros (m' & Hm' & Huser' & Hnone)]);
    try done;
    try (unfold user_entry in Huser';
         rewrite <- (decided_by_unique _ _ _ Hm Hm') in Huser', Hnone;
         congruence).
  - by destruct (decided_by_not_all_other _ _ Hm').
  - by exists m.
  - by destruct (pipeline_run_facts (model req) query w) as (? & _).
Qed.

(** X5. The handler returns the error body exactly when every entry has
    a role other than "user", or the scan from the end stops at an entry
    with role "user" whose content is the empty string. *)
Theorem error_body_iff req w :
  outcome_of (handler req w) = inr no_user_message ↔
  Forall other_entry (messages req) ∨
  ∃ m, decided_by (messages req) m ∧ user_entry m ∧ m !! "content" = Some "".
Proof.
  destruct (chat_completions_cases req w)
    as [[Hall Hrun] | (m & Hm & [[Hrole Hrun] | [(Huser & Hc & Hrun)
        | [(Huser & Hc & Hrun) | [(query & Huser & Hc & Hne & _ & Hrun)
        | (query & Huser & Hc & Hne & _ & Hrun)]]]])];
    rewrite Hrun; split; try done; try by left.
  - intros [Hall | (m' & Hm' & Huser & _)].
    + by destruct (decided_by_not_all_other _ _ Hm).
    + unfold user_entry in Huser.
      rewrite <- (decided_by_unique _ _ _ Hm Hm') in Huser. congruence.
  - intros [Hall | (m' & Hm' & _ & Hc')].
    + by destruct (decided_by_not_all_other _ _ Hm).
    + rewrite <- (decided_by_unique _ _ _ Hm Hm') in Hc'. congruence.
  - intros _. right. by exists m.
  - intros [Hall | (m' & Hm' & _ & Hc')].
    + by destruct (decided_by_not_all_other _ _ Hm).
    + rewrite <- (decided_by_unique _ _ _ Hm Hm') in Hc'. congruence.
  - intros Hout.
    by destruct (pipeline_run_facts (model req) query w) as (_ & _ & Hb).
  - intros [Hall | (m' & Hm' & _ & Hc')].
    + by destruct (decided_by_not_all_other _ _ Hm).
    + rewrite <- (decided_by_unique _ _ _ Hm Hm') in Hc'. congruence.
Qed.

(** X6. The factory is called, once and with [query], exactly when the
    scan from the end stops at an entry with role "user" whose content is
    [query], [query] is not empty, and standard output can encode the line
    printed for it. *)
Theorem factory_called_iff req w query :
  factory_calls (trace_of (handler req w)) = [query] ↔
  ∃ m, decided_by (messages req) m ∧ user_entry m ∧
       m !! "content" = Some query ∧ query ≠ "" ∧
       printable stdout_encodes ("Received query for API: " +:+ query) = true.
Proof.
  destruct (chat_completions_cases req w)
    as [[Hall Hrun] | (m & Hm & [[Hrole Hrun] | [(Huser & Hc & Hrun)
        | [(Huser & Hc & Hrun) | [(q & Huser & Hc & Hne & Hprint & Hrun)
        | (q & Huser & Hc & Hne & Hprint & Hrun)]]]])];
    rewrite Hrun; split; try done.
  - intros (m' & Hm' & _). by destruct (decided_by_not_all_other _ _ Hm').
  - intros (m' & Hm' & Huser & _). unfold user_entry in Huser.
    rewrite <- (decided_by_unique _ _ _ Hm Hm') in Huser. congruence.
  - intros (m' & Hm' & _ & Hc' & _).
    rewrite <- (decided_by_unique _ _ _ Hm Hm') in Hc'. congruence.
  - intros (m' & Hm' & _ & Hc' & Hne & _).
    rewrite <- (decided_by_unique _ _ _ Hm Hm') in Hc'. congruence.
  - intros (m' & Hm' & _ & Hc' & _ & Hprint').
    rewrite <- (decided_by_unique _ _ _ Hm Hm') in Hc'.
    assert (query = q) as -> by congruence. congruence.
  - destruct (pipeline_run_facts (model req) q w) as (_ & -> & _).
    intros [= ->]. by exists m.
  - intros (m' & Hm' & _ & Hc' & _).
    rewrite <- (decided_by_unique _ _ _ Hm Hm') in Hc'.
    destruct (pipeline_run_facts (model req) q w) as (_ & -> & _). congruence.
Qed.

(** X19. When the scan from the end stops at an entry with role "user"
    whose content is not empty and standard output cannot encode the line
    printed for it, the handler raises [UnicodeEncodeError] at its [print]:
    the pipeline is not called and the world is as it was. *)
Theorem unprintable_query_stops_before_pipeline req m query w :
  decided_by (messages req) m →
  user_entry m →
  m !! "content" = Some query →
  query ≠ "" →
  printable stdout_encodes ("Received query for API: " +:+ query) = false →
  handler req w =
    (w, [], inl (UnicodeEncodeError ("Received query for API: " +:+ query))) ∧
  factory_calls (trace_of (handler req w)) = [].
Proof.
  intros Hm Huser Hc Hne Hprint.
  pose proof (next_user_content_decided (Crew:=Crew) (Failure:=Failure)
                _ _ w Hm) as Hscan.
  rewrite next_user_content_user, Hc in Hscan by done.
  by rewrite (chat_completions_unprintable stdout_encodes create_rag_crew
                kickoff str req query w Hscan Hne Hprint).
Qed.

(** *** What the handler does not read *)

(** X7. When the scan is decided inside the tail [rest] of the messages,
    the entries before [rest] are not read: the run is the run on [rest]
    alone, whatever those entries are, also when they lack keys. *)
Theorem earlier_history_ignored model_name before rest w :
  ¬ Forall other_entry rest →
  handler (mkChatRequest model_name (before ++ rest)) w =
  handler (mkChatRequest model_name rest) w.
Proof.
  intros Hnot.
  destruct (scan_stops rest) as [Hall | (m & b & a & -> & Hm & Ha)]; [done|].
  apply chat_completions_same_scan; [done|]. cbn [messages].
  rewrite (next_user_content_decided (b ++ m :: a) m) by by exists b, a.
  apply next_user_content_decided. exists (before ++ b), a.
  by rewrite <- app_assoc.
Qed.

(** X8. Entries with a role other than "user" at the end of the messages
    do not change the run. *)
Theorem trailing_other_entries_ignored model_name msgs trailing w :
  Forall other_entry trailing →
  handler (mkChatRequest model_name (msgs ++ trailing)) w =
  handler (mkChatRequest model_name msgs) w.
Proof.
  intros Hall. apply chat_completions_same_scan; [done|]. cbn [messages].
  rewrite reverse_app. apply next_user_content_skip.
  by apply Forall_reverse.
Qed.

(** X9. The model name of the request reaches nothing but the field
    "model" of the envelope: two requests with the same messages leave the
    same world, emit the same events, and raise the same exception or
    return bodies equal on every other field. *)
Theorem model_name_only_in_model_field model1 model2 msgs w :
  world_of (handler (mkChatRequest model1 msgs) w) =
    world_of (handler (mkChatRequest model2 msgs) w) ∧
  trace_of (handler (mkChatRequest model1 msgs) w) =
    trace_of (handler (mkChatRequest model2 msgs) w) ∧
  match outcome_of (handler (mkChatRequest model1 msgs) w),
        outcome_of (handler (mkChatRequest model2 msgs) w) with
  | inl e1, inl e2 => e1 = e2
  | inr body1, inr body2 => ∀ k, k ≠ "model" → field k body1 = field k body2
  | _, _ => False
  end.
Proof.
  destruct (chat_completions_cases (mkChatRequest model1 msgs) w)
    as [[Hall Hrun1] | (m & Hm & Hcases)].
  { rewrite Hrun1.
    destruct (chat_completions_cases (mkChatRequest model2 msgs) w)
      as [[_ ->] | (m & Hm & _)]; [done|].
    by destruct (decided_by_not_all_other _ _ Hm). }
  destruct (chat_completions_cases (mkChatRequest model2 msgs) w)
    as [[Hall _] | (m' & Hm' & Hcases')].
  { by destruct (decided_by_not_all_other _ _ Hm). }
  cbn [messages model] in *.
  destruct (decided_by_unique _ _ _ Hm Hm'). unfold user_entry in *.
  destruct Hcases as [[Hrole ->] | [(Huser & Hc & ->)
    | [(Huser & Hc & ->) | [(q & Huser & Hc & Hne & Hprint & ->)
    | (q & Huser & Hc & Hne & Hprint & ->)]]]];
  destruct Hcases' as [[Hrole' ->] | [(Huser' & Hc' & ->)
    | [(Huser' & Hc' & ->) | [(q' & Huser' & Hc' & Hne' & Hprint' & ->)
    | (q' & Huser' & Hc' & Hne' & Hprint' & ->)]]]];
    try congruence; try done.
  { assert (q' = q) as -> by congruence. done. }
  assert (q' = q) as -> by congruence. unfold pipeline_run.
  destruct (create_rag_crew q w) as [w1 [e|crew]]; [done|].
  destruct (kickoff crew w1) as [w2 [e|out]]; [done|].
  split_and!; [done..|]. intros k Hk.
  unfold field, chat_response. cbn [assoc].
  by repeat case_decide.
Qed.

(** *** What the handler emits *)

(** X10. A run emits nothing, or it prints the query once, then calls the
    factory on that query, then, only when the factory returned a crew,
    calls [kickoff] once on that crew, in the world the factory left. *)
Theorem trace_shape req w :
  trace_of (handler req w) = [] ∨
  ∃ query,
    query ≠ "" ∧
    ((∃ e w1, create_rag_crew query w = (w1, inl e) ∧
        trace_of (handler req w) =
          [Printed ("Received query for API: " +:+ query); Created query] ∧
        world_of (handler req w) = w1) ∨
     (∃ crew w1, create_rag_crew query w = (w1, inr crew) ∧
        trace_of (handler req w) =
          [Printed ("Received query for API: " +:+ query); Created query;
           KickedOff crew] ∧
        world_of (handler req w) = (kickoff crew w1).1)).
Proof.
  destruct (chat_completions_cases req w)
    as [[_ ->] | (m & _ & [[_ ->] | [(_ & _ & ->)
        | [(_ & _ & ->) | [(query & _ & _ & Hne & _ & ->)
        | (query & _ & _ & Hne & _ & ->)]]]])];
    try by left.
  right. exists query. split; [done|]. unfold pipeline_run.
  destruct (create_rag_crew query w) as [w1 [e|crew]].
  - left. by exists e, w1.
  - right. exists crew, w1. by destruct (kickoff crew w1) as [w2 [e|out]].
Qed.

(** X11. A returned body tells by its key "error" whether the pipeline ran:
    with the key, it has no choices, nothing was emitted and the world is
    as it was; without the key, it has one choice and the factory was
    called. *)
Theorem error_key_discriminates req w w' tr body :
  handler req w = (w', tr, inr body) →
  (field "error" body = Some (JStr "No user message found") ∧
   field "choices" body = None ∧ tr = [] ∧ w' = w) ∨
  (field "error" body = None ∧
   (∃ choice, field "choices" body = Some (JArr [choice])) ∧
   ∃ query, factory_calls tr = [query]).
Proof.
  intros Hrun.
  destruct (chat_completions_cases req w)
    as [[_ Hrun'] | (m & _ & [[_ Hrun'] | [(_ & _ & Hrun')
        | [(_ & _ & Hrun') | [(query & _ & _ & _ & _ & Hrun')
        | (query & _ & _ & _ & _ & Hrun')]]]])];
    rewrite Hrun' in Hrun; try done.
  - injection Hrun as <- <- <-. by left.
  - injection Hrun as <- <- <-. by left.
  - right. unfold pipeline_run in Hrun.
    destruct (create_rag_crew query w) as [w1 [e|crew]]; [done|].
    destruct (kickoff crew w1) as [w2 [e|out]]; [done|].
    injection Hrun as <- <- <-. split_and!; [done|by eexists|by exists query].
Qed.

End Runs.

(** ** The tracing block *)

Section BootFacts.
Context {World : Type}.
Variable import_register :
  gmap string string → World → World * (Boot.error + unit).
Variable register :
  string → string → bool → gmap string string → World
  → World * (Boot.error + unit).

Local Abbreviation setup := (Boot.setup import_register register).
Local Abbreviation succeeds := (Boot.succeeds import_register register).
Local Abbreviation fails := (Boot.fails import_register register).

Implicit Types (s : Boot.state (World:=World)) (e : Boot.error).

(** How an exception of the [try] body leaves the two [except] clauses. *)
Lemma clause_for_setup {A} e (h1 h2 : Boot.error → Boot.T (World:=World) A) :
  Boot.clause_for e [(Boot.ImportError, h1); (Boot.Exception, h2)] =
    match Boot.class e with
    | Boot.ImportError => Some h1
    | Boot.Exception => Some h2
    | Boot.BaseException => None
    end.
Proof. by destruct e as [[] ?]. Qed.

(** The ways the block ends: both calls return; the import raises; the
    import returns and the registration raises. An exception met is handled
    by its class. *)
Lemma setup_cases s :
  let env' := Boot.exported (Boot.environ s) in
  let endpoint := Boot.collector_endpoint (Boot.environ s) in
  let registered :=
    Boot.Registered "default" (endpoint +:+ "/v1/traces") true in
  let handled e w' tr : Boot.run unit :=
    match Boot.class e with
    | Boot.ImportError =>
        (Boot.mkState env' w',
         tr ++ [Boot.Logged Boot.WARNING
                  ("⚠️  Tracing module not found: " +:+ Boot.text e)],
         inr tt)
    | Boot.Exception =>
        (Boot.mkState env' w',
         tr ++ [Boot.Logged Boot.WARNING
                  ("⚠️  Could not initialize tracing: " +:+ Boot.text e)],
         inr tt)
    | Boot.BaseException => (Boot.mkState env' w', tr, inl e)
    end in
  (∃ w', succeeds s w' ∧
     setup s =
       (Boot.mkState env' w',
        [Boot.Imported; registered;
         Boot.Logged Boot.INFO
           ("✅ Tracing successfully initialized for API server at "
            +:+ endpoint)],
        inr tt)) ∨
  (∃ e w',
     import_register env' (Boot.outside s) = (w', inl e) ∧
     setup s = handled e w' [Boot.Imported]) ∨
  (∃ e w1 u1 w',
     import_register env' (Boot.outside s) = (w1, inr u1) ∧
     register "default" (endpoint +:+ "/v1/traces") true env' w1
       = (w', inl e) ∧
     setup s = handled e w' [Boot.Imported; registered]).
Proof.
  intros env' endpoint registered handled.
  subst env' endpoint registered handled.
  unfold Boot.succeeds, Boot.setup, Boot.bind, Boot.getenv, Boot.setenv,
    Boot.try_except, Boot.call_import, Boot.call_register, Boot.log,
    Boot.exported, Boot.collector_endpoint, default.
  destruct s as [env w]. cbn [Boot.environ Boot.outside].
  destruct (import_register _ w) as [w1 [e|u1]] eqn:Himport.
  - right. left. exists e, w1. split; [done|].
    rewrite clause_for_setup. by destruct e as [[] txt].
  - cbn [Boot.environ Boot.outside].
    destruct (register _ _ _ _ w1) as [w2 [e|u2]] eqn:Hregister.
    + right. right. exists e, w1, u1, w2. split_and!; [done..|].
      rewrite clause_for_setup. by destruct e as [[] txt].
    + left. exists w2. split; [by exists w1, u1, u2|done].
Qed.

Ltac boot_unfold :=
  unfold Boot.succeeds, Boot.fails, Boot.setup, Boot.bind, Boot.getenv,
    Boot.setenv, Boot.try_except, Boot.call_import, Boot.call_register,
    Boot.log, Boot.exported, Boot.collector_endpoint, default, from_option,
    id, Boot.state_of, Boot.trace_of, Boot.outcome_of in *;
  cbn [Boot.environ Boot.outside fst snd] in *.

Lemma setup_state s :
  ∃ w', Boot.state_of (setup s) =
          Boot.mkState (Boot.exported (Boot.environ s)) w'.
Proof.
  destruct (setup_cases s) as [(w' & _ & ->) | [(e & w' & _ & ->)
    | (e & w1 & u1 & w' & _ & _ & ->)]]; exists w'; try done;
    by destruct (Boot.class e).
Qed.

Lemma collector_endpoint_exported (env : gmap string string) :
  Boot.collector_endpoint (Boot.exported env) = Boot.collector_endpoint env.
Proof.
  unfold Boot.collector_endpoint at 1, Boot.exported.
  by rewrite lookup_insert_ne.
Qed.

(** X12. Whatever the import and the registration do, the block leaves
    [os.environ] with PHOENIX_COLLECTOR_ENDPOINT set to "http://", the host
    and ":6006", and every other variable as it was. The host is the value
    of PHOENIX_HOST when that variable is set, also to the empty string,
    and "host.docker.internal" when it is not. *)
Theorem setup_environ s :
  Boot.environ (Boot.state_of (setup s)) =
    <["PHOENIX_COLLECTOR_ENDPOINT" :=
        "http://"
        +:+ default "host.docker.internal" (Boot.environ s !! "PHOENIX_HOST")
        +:+ ":6006"]> (Boot.environ s).
Proof. by destruct (setup_state s) as [w' ->]. Qed.

(** X13. Running the block again changes [os.environ] no further. *)
Theorem setup_environ_idempotent s :
  Boot.environ (Boot.state_of (setup (Boot.state_of (setup s)))) =
  Boot.environ (Boot.state_of (setup s)).
Proof.
  destruct (setup_state s) as [w1 Hs1]. rewrite Hs1.
  destruct (setup_state (Boot.mkState (Boot.exported (Boot.environ s)) w1))
    as [w2 ->].
  cbn [Boot.environ]. unfold Boot.exported at 1.
  rewrite collector_endpoint_exported. unfold Boot.exported.
  by rewrite insert_insert_eq.
Qed.

(** X14. A value that PHOENIX_COLLECTOR_ENDPOINT had before is
    overwritten and read by nothing: the run is the same with and without
    it. *)
Theorem setup_ignores_previous_endpoint (env : gmap string string)
    (previous : string) (w : World) :
  setup (Boot.mkState (<["PHOENIX_COLLECTOR_ENDPOINT" := previous]> env) w) =
  setup (Boot.mkState env w).
Proof.
  boot_unfold. by rewrite lookup_insert_ne, insert_insert_eq.
Qed.

(** X15. An exception leaves the block only when it is outside
    [Exception]: then it is the one the import or the registration raised,
    and nothing was logged. *)
Theorem setup_raises_only_outside_exception s e :
  Boot.outcome_of (setup s) = inl e →
  Boot.class e = Boot.BaseException ∧
  Boot.logged (Boot.trace_of (setup s)) = [] ∧
  ∃ w', fails s e w'.
Proof.
  intros Hout.
  destruct (setup_cases s) as [(w' & _ & Hrun) | [(e' & w' & Himport & Hrun)
    | (e' & w1 & u1 & w' & Himport & Hregister & Hrun)]];
    rewrite Hrun in Hout |- *; [done|..];
    destruct (Boot.class e') eqn:Hclass; try done;
    injection Hout as <-; split_and!; try done; exists w'.
  - by left.
  - right. by exists w1, u1.
Qed.

(** X16. A failure of the import or of the registration inside
    [Exception] does not stop the start-up: the block completes with one
    warning, whose text is chosen by the class of the exception and not by
    the step that raised it. *)
Theorem setup_failure_logged_by_class s e w' :
  fails s e w' →
  Boot.class e ≠ Boot.BaseException →
  Boot.outcome_of (setup s) = inr tt ∧
  Boot.outside (Boot.state_of (setup s)) = w' ∧
  Boot.logged (Boot.trace_of (setup s)) =
    [(Boot.WARNING,
      (match Boot.class e with
       | Boot.ImportError => "⚠️  Tracing module not found: "
       | _ => "⚠️  Could not initialize tracing: "
       end) +:+ Boot.text e)].
Proof.
  intros Hfails Hclass. destruct s as [env w]. boot_unfold.
  destruct Hfails as [Himport | (w1 & u1 & Himport & Hregister)].
  - rewrite Himport, clause_for_setup. by destruct e as [[] txt].
  - rewrite Himport. cbn [Boot.environ Boot.outside].
    rewrite Hregister, clause_for_setup. by destruct e as [[] txt].
Qed.

(** X17. The calls of [logging] made by the block are a single call of
    [logging.info] exactly when the import and the registration both
    returned. *)
Theorem setup_info_iff_registered s :
  (∃ message,
     Boot.logged (Boot.trace_of (setup s)) = [(Boot.INFO, message)]) ↔
  ∃ w', succeeds s w'.
Proof.
  destruct (setup_cases s) as [(w' & Hok & Hrun) | [(e & w' & Himport & Hrun)
    | (e & w1 & u1 & w' & Himport & Hregister & Hrun)]]; rewrite Hrun.
  - split; [by exists w' | by eexists].
  - split.
    + intros [message Hlog]. by destruct (Boot.class e).
    + intros (w2 & w3 & u2 & u3 & Himport' & _). congruence.
  - split.
    + intros [message Hlog]. by destruct (Boot.class e).
    + intros (w2 & w3 & u2 & u3 & Himport' & Hregister').
      assert (w3 = w1) as -> by congruence. congruence.
Qed.

(** X18. [register] is called at most once, and not at all when the import
    raised; its project is "default", instrumentation is on, and its
    endpoint is the address left in PHOENIX_COLLECTOR_ENDPOINT followed by
    "/v1/traces". *)
Theorem setup_registers_exported_endpoint s :
  ∃ address,
    Boot.environ (Boot.state_of (setup s)) !! "PHOENIX_COLLECTOR_ENDPOINT"
      = Some address ∧
    ((Boot.registrations (Boot.trace_of (setup s)) = [] ∧
      ∃ e w', import_register (Boot.environ (Boot.state_of (setup s)))
                (Boot.outside s) = (w', inl e)) ∨
     (Boot.registrations (Boot.trace_of (setup s)) =
        [("default", address +:+ "/v1/traces", true)] ∧
      ∃ u w', import_register (Boot.environ (Boot.state_of (setup s)))
                (Boot.outside s) = (w', inr u))).
Proof.
  exists (Boot.collector_endpoint (Boot.environ s)).
  destruct (setup_state s) as [w0 Hstate]. rewrite Hstate.
  cbn [Boot.environ]. split; [apply lookup_insert_eq|].
  destruct (setup_cases s) as [(w' & Hok & Hrun) | [(e & w' & Himport & Hrun)
    | (e & w1 & u1 & w' & Himport & Hregister & Hrun)]]; rewrite Hrun.
  - right. split; [done|].
    destruct Hok as (w1 & u1 & _ & Himport & _). by exists u1, w1.
  - left. split; [by destruct (Boot.class e) | by exists e, w'].
  - right. split; [by destruct (Boot.class e) | by exists u1, w1].
Qed.

End BootFacts.

(** ** The properties above on concrete requests and machines *)


Lemma well_formed_key_error_after_factory_witness :
  ∃ query,
    factory_calls
      (trace_of
         (chat_completions Stub.utf8_stdout Stub.unconfigured_create
            Stub.kickoff Stub.str sample_request 0%nat)) = [query].
Proof.
  apply (well_formed_key_error_after_factory Stub.utf8_stdout
           Stub.unconfigured_create Stub.kickoff Stub.str
           sample_request 0%nat "OPENAI_API_KEY").
  - intros m Hm. cbn in Hm.
    repeat (apply elem_of_cons in Hm as [-> | Hm];
            [split; by eexists|]).
    by apply elem_of_nil in Hm.
  - reflexivity.
Defined.

Lemma unprintable_query_stops_before_pipeline_witness :
  chat_completions Stub.ascii_stdout Stub.create Stub.kickoff Stub.str
    accented_request 0%nat =
    (0%nat, [], inl (UnicodeEncodeError ("Received query for API: " +:+ "café")))
  ∧
  factory_calls
    (trace_of
       (chat_completions Stub.ascii_stdout Stub.create Stub.kickoff Stub.str
          accented_request 0%nat)) = [].
Proof.
  apply (unprintable_query_stops_before_pipeline Stub.ascii_stdout
           Stub.create Stub.kickoff Stub.str
           accented_request (msg "user" "café") "café" 0%nat).
  - exists [], []. split_and!; [reflexivity | | constructor].
    intros [_ Hnot]. by apply Hnot.
  - reflexivity.
  - reflexivity.
  - discriminate.
  - reflexivity.
Defined.

Lemma earlier_history_ignored_witness :
  stub_handler
    (mkChatRequest "gpt-4"
       ([{["content" := "hello"]}; msg "user" "A"]
        ++ [msg "user" "C"; msg "assistant" "B"])) 0%nat =
  stub_handler
    (mkChatRequest "gpt-4" [msg "user" "C"; msg "assistant" "B"]) 0%nat.
Proof.
  apply (earlier_history_ignored Stub.utf8_stdout Stub.create Stub.kickoff Stub.str "gpt-4"
           [{["content" := "hello"]}; msg "user" "A"]
           [msg "user" "C"; msg "assistant" "B"] 0%nat).
  intros Hall. apply Forall_cons in Hall as [[_ Hnot] _].
  apply Hnot. reflexivity.
Defined.

Lemma trailing_other_entries_ignored_witness :
  stub_handler
    (mkChatRequest "gpt-4"
       ([msg "user" "C"] ++ [msg "assistant" "B"; msg "system" "x"])) 0%nat =
  stub_handler (mkChatRequest "gpt-4" [msg "user" "C"]) 0%nat.
Proof.
  apply (trailing_other_entries_ignored Stub.utf8_stdout Stub.create Stub.kickoff Stub.str
           "gpt-4" [msg "user" "C"]
           [msg "assistant" "B"; msg "system" "x"] 0%nat).
  repeat constructor; (by eexists) || discriminate.
Defined.

Lemma error_key_discriminates_witness :
  (field "error" (chat_response "app-rag-model" "answer to C")
     = Some (JStr "No user message found") ∧
   field "choices" (chat_response "app-rag-model" "answer to C") = None ∧
   [Printed "Received query for API: C"; Created "C"; KickedOff "C"] = [] ∧
   2%nat = 0%nat) ∨
  (field "error" (chat_response "app-rag-model" "answer to C") = None ∧
   (∃ choice,
      field "choices" (chat_response "app-rag-model" "answer to C")
        = Some (JArr [choice])) ∧
   ∃ query,
     factory_calls
       [Printed "Received query for API: C"; Created "C"; KickedOff "C"]
       = [query]).
Proof.
  apply (error_key_discriminates Stub.utf8_stdout Stub.create Stub.kickoff Stub.str
           sample_request 0%nat 2%nat
           [Printed "Received query for API: C"; Created "C"; KickedOff "C"]
           (chat_response "app-rag-model" "answer to C")).
  vm_compute. reflexivity.
Defined.

Lemma setup_raises_only_outside_exception_witness :
  Boot.class (Boot.mkError Boot.BaseException "KeyboardInterrupt")
    = Boot.BaseException ∧
  Boot.logged
    (Boot.trace_of
       (Boot.setup Boot.present_import Boot.interrupted_register
          (Boot.mkState ∅ 0%nat))) = [] ∧
  ∃ w',
    Boot.fails Boot.present_import Boot.interrupted_register
      (Boot.mkState ∅ 0%nat)
      (Boot.mkError Boot.BaseException "KeyboardInterrupt") w'.
Proof.
  apply (setup_raises_only_outside_exception Boot.present_import
           Boot.interrupted_register (Boot.mkState ∅ 0%nat)
           (Boot.mkError Boot.BaseException "KeyboardInterrupt")).
  reflexivity.
Defined.

Lemma setup_failure_logged_by_class_witness :
  Boot.outcome_of
    (Boot.setup Boot.absent_import Boot.accepting_register
       (Boot.mkState {["PHOENIX_HOST" := "localhost"]} 0%nat)) = inr tt ∧
  Boot.outside
    (Boot.state_of
       (Boot.setup Boot.absent_import Boot.accepting_register
          (Boot.mkState {["PHOENIX_HOST" := "localhost"]} 0%nat))) = 1%nat ∧
  Boot.logged
    (Boot.trace_of
       (Boot.setup Boot.absent_import Boot.accepting_register
          (Boot.mkState {["PHOENIX_HOST" := "localhost"]} 0%nat))) =
    [(Boot.WARNING,
      "⚠️  Tracing module not found: " +:+ "No module named 'phoenix'")].
Proof.
  apply (setup_failure_logged_by_class Boot.absent_import
           Boot.accepting_register
           (Boot.mkState {["PHOENIX_HOST" := "localhost"]} 0%nat)
           (Boot.mkError Boot.ImportError "No module named 'phoenix'") 1%nat).
  - left. reflexivity.
  - discriminate.
Defined.
